(** * A shallow embedding of the static-analysis pipeline
    [tools/pipeline/combine.py] (bundle builder) and
    [tools/pipeline/render_html.py] (HTML report renderer).

    Python values are modelled as they are at run time:
    - a Python [str] is a list of code points ([pstr]);
    - file contents are lists of bytes (each a [Z] in [0, 255]); text-mode
      [open(p).read()] decodes them as strict UTF-8 and applies universal
      newline translation;
    - values produced by [json.loads] are the inductive [json], with Python
      dicts as association lists kept in insertion order;
    - the process (file system, standard output, exit) is threaded through a
      small state-and-exception monad. *)

From Stdlib Require Import String Ascii List ZArith Bool Lia.
Import ListNotations.
Open Scope Z_scope.
Set Warnings "-register-all".

(** ** Strings and bytes *)

Definition pstr := list Z.

Definition bytes := list Z.

Definition pstr_eqb (a b : pstr) : bool :=
  if list_eq_dec Z.eq_dec a b then true else false.

Definition is_cont (b : Z) : bool := (128 <=? b) && (b <=? 191).

Definition in_range (lo hi b : Z) : bool := (lo <=? b) && (b <=? hi).

(** Python's strict ['utf-8'] decoder: [None] is a [UnicodeDecodeError].
    Overlong forms, encoded surrogates and code points above U+10FFFF are
    rejected, as CPython does. *)
Fixpoint utf8_decode (bs : bytes) : option pstr :=
  match bs with
  | [] => Some []
  | b0 :: r0 =>
    if b0 <? 0 then None
    else if b0 <? 128 then option_map (cons b0) (utf8_decode r0)
    else if in_range 194 223 b0 then
      match r0 with
      | b1 :: r1 =>
        if is_cont b1
        then option_map (cons ((b0 - 192) * 64 + (b1 - 128))) (utf8_decode r1)
        else None
      | [] => None
      end
    else if in_range 224 239 b0 then
      match r0 with
      | b1 :: b2 :: r2 =>
        let ok1 := if b0 =? 224 then in_range 160 191 b1
                   else if b0 =? 237 then in_range 128 159 b1
                   else is_cont b1 in
        if ok1 && is_cont b2
        then option_map (cons ((b0 - 224) * 4096 + (b1 - 128) * 64 + (b2 - 128)))
                        (utf8_decode r2)
        else None
      | _ => None
      end
    else if in_range 240 244 b0 then
      match r0 with
      | b1 :: b2 :: b3 :: r3 =>
        let ok1 := if b0 =? 240 then in_range 144 191 b1
                   else if b0 =? 244 then in_range 128 143 b1
                   else is_cont b1 in
        if ok1 && is_cont b2 && is_cont b3
        then option_map (cons ((b0 - 240) * 262144 + (b1 - 128) * 4096
                               + (b2 - 128) * 64 + (b3 - 128)))
                        (utf8_decode r3)
        else None
      | _ => None
      end
    else None
  end.

(** Python's ['utf-8'] encoder (strict): lone surrogates cannot be encoded. *)
Fixpoint utf8_encode (s : pstr) : option bytes :=
  match s with
  | [] => Some []
  | c :: r =>
    let enc :=
      if c <? 0 then None
      else if c <? 128 then Some [c]
      else if c <? 2048 then Some [192 + c / 64; 128 + c mod 64]
      else if in_range 55296 57343 c then None
      else if c <? 65536 then
        Some [224 + c / 4096; 128 + (c / 64) mod 64; 128 + c mod 64]
      else if c <? 1114112 then
        Some [240 + c / 262144; 128 + (c / 4096) mod 64;
              128 + (c / 64) mod 64; 128 + c mod 64]
      else None in
    match enc, utf8_encode r with
    | Some e, Some t => Some (e ++ t)
    | _, _ => None
    end
  end.

(** Universal newlines of text-mode reads: ["\r\n"] and ["\r"] become ["\n"]. *)
Fixpoint translate_newlines (s : pstr) : pstr :=
  match s with
  | [] => []
  | c :: r =>
    if c =? 13 then
      match r with
      | d :: r' => if d =? 10 then 10 :: translate_newlines r'
                   else 10 :: translate_newlines r
      | [] => [10]
      end
    else c :: translate_newlines r
  end.

(** The text of a source literal.  The literals of the Python source are
    written below as Rocq strings holding their UTF-8 bytes; a double
    quote of the source is written as a backquote (the source's template
    holds no backquote). *)
Definition lit (s : string) : pstr :=
  map (fun c => if c =? 96 then 34 else c)
      (match utf8_decode (map (fun a => Z.of_nat (nat_of_ascii a))
                              (list_ascii_of_string s)) with
       | Some cs => cs
       | None => []
       end).

Fixpoint is_prefix (p s : pstr) : bool :=
  match p, s with
  | [], _ => true
  | a :: p', b :: s' => (a =? b) && is_prefix p' s'
  | _ :: _, [] => false
  end.

Fixpoint is_infix (p s : pstr) : bool :=
  is_prefix p s ||
  match s with
  | [] => false
  | _ :: s' => is_infix p s'
  end.

(** Index of the first occurrence of [p] in [s] ([str.find]). *)
Fixpoint find_sub (p s : pstr) : option nat :=
  if is_prefix p s then Some O
  else match s with
       | [] => None
       | _ :: s' => option_map S (find_sub p s')
       end.

Fixpoint ends_with (suf s : pstr) : bool :=
  pstr_eqb suf s ||
  match s with
  | [] => false
  | _ :: s' => ends_with suf s'
  end.

Fixpoint join (sep : pstr) (xs : list pstr) : pstr :=
  match xs with
  | [] => []
  | [x] => x
  | x :: xs' => x ++ sep ++ join sep xs'
  end.

(** [str.replace(old, "")] for a non-empty [old]: every non-overlapping
    occurrence, scanning left to right, is removed. *)
Fixpoint replace_aux (fuel : nat) (old s : pstr) : pstr :=
  match fuel with
  | O => s
  | S f =>
    match s with
    | [] => []
    | c :: r =>
      if is_prefix old s then replace_aux f old (skipn (length old) s)
      else c :: replace_aux f old r
    end
  end.

Definition py_replace_empty (old s : pstr) : pstr :=
  replace_aux (S (length s)) old s.

(** [os.path.basename]: the part after the last ['/']. *)
Fixpoint basename_aux (cur s : pstr) : pstr :=
  match s with
  | [] => rev cur
  | c :: r => if c =? 47 then basename_aux [] r else basename_aux (c :: cur) r
  end.

Definition basename (p : pstr) : pstr := basename_aux [] p.

(** Line boundaries of [str.splitlines]. *)
Definition is_line_boundary (c : Z) : bool :=
  in_range 10 13 c || in_range 28 30 c || (c =? 133) || (c =? 8232) || (c =? 8233).

(** [str.splitlines()]: a trailing boundary opens no empty last line, and
    ["\r\n"] counts as one boundary. *)
Fixpoint splitlines_aux (cur : pstr) (s : pstr) : list pstr :=
  match s with
  | [] => match cur with [] => [] | _ => [rev cur] end
  | c :: r =>
    if c =? 13 then
      match r with
      | d :: r' => if d =? 10 then rev cur :: splitlines_aux [] r'
                   else rev cur :: splitlines_aux [] r
      | [] => [rev cur]
      end
    else if is_line_boundary c then rev cur :: splitlines_aux [] r
    else splitlines_aux (c :: cur) r
  end.

Definition splitlines (s : pstr) : list pstr := splitlines_aux [] s.

(** Decimal digits of a non-negative integer. *)
Fixpoint digits_aux (fuel : nat) (n : Z) (acc : pstr) : pstr :=
  match fuel with
  | O => acc
  | S f =>
    if n <? 10 then (48 + n) :: acc
    else digits_aux f (n / 10) ((48 + n mod 10) :: acc)
  end.

Definition nat_digits (n : Z) : pstr := digits_aux (S (Z.to_nat (Z.log2 n))) n [].

(** [repr(int)] and [str(int)]. *)
Definition int_repr (z : Z) : pstr :=
  if z <? 0 then 45 :: nat_digits (- z) else nat_digits z.

(** ** JSON values

    The values [json.loads] produces.  Numbers are Python [int]s and
    [float]s; a [float] is represented by its [repr] (e.g. [1.5], [1e+100],
    [inf], [nan]), which is also what [str] gives.  Parsing a float literal
    (with a fraction or an exponent, or [NaN]/[Infinity]) is outside the
    embedding and reported by the parser as [FloatLiteral].
    A JSON object is a Python dict: an association list in insertion order
    whose keys are distinct. *)
Inductive json : Type :=
| JNull
| JBool (b : bool)
| JInt (z : Z)
| JFloat (r : pstr)
| JStr (s : pstr)
| JArr (xs : list json)
| JObj (kvs : list (pstr * json)).

Definition dict := list (pstr * json).

Fixpoint dict_lookup (k : pstr) (d : dict) : option json :=
  match d with
  | [] => None
  | (k', v) :: d' => if pstr_eqb k k' then Some v else dict_lookup k d'
  end.

(** [d[k] = v]: an existing key keeps its position, a new key goes last. *)
Fixpoint dict_set (k : pstr) (v : json) (d : dict) : dict :=
  match d with
  | [] => [(k, v)]
  | (k', v') :: d' =>
    if pstr_eqb k k' then (k', v) :: d' else (k', v') :: dict_set k v d'
  end.

(** [dict(pairs)]. *)
Definition dict_of_pairs (ps : dict) : dict :=
  fold_left (fun d '(k, v) => dict_set k v d) ps [].

(** [dict.get(k, default)]. *)
Definition py_get (d : dict) (k : pstr) (dflt : json) : json :=
  match dict_lookup k d with Some v => v | None => dflt end.

(** ** [json.dumps] / [json.dump] (default options: [ensure_ascii=True]) *)

(** [('\\u{0:04x}').format(n)]: four lower-case hex digits. *)
Definition hex_digit (d : Z) : Z := if d <? 10 then 48 + d else 87 + d.

Definition u_escape (n : Z) : pstr :=
  [92; 117; hex_digit (Z.land (Z.shiftr n 12) 15); hex_digit (Z.land (Z.shiftr n 8) 15);
   hex_digit (Z.land (Z.shiftr n 4) 15); hex_digit (Z.land n 15)].

(** [py_encode_basestring_ascii], one code point: backslash, double quote
    and the five short escapes, printable ASCII [' '..'~'] as itself, everything
    else as [\uXXXX], astral code points as a surrogate pair. *)
Definition esc_char (c : Z) : pstr :=
  if c =? 92 then [92; 92]
  else if c =? 34 then [92; 34]
  else if c =? 8 then [92; 98]
  else if c =? 12 then [92; 102]
  else if c =? 10 then [92; 110]
  else if c =? 13 then [92; 114]
  else if c =? 9 then [92; 116]
  else if in_range 32 126 c then [c]
  else if c <? 65536 then u_escape c
  else
    let n := c - 65536 in
    let s1 := Z.lor 55296 (Z.land (Z.shiftr n 10) 1023) in
    let s2 := Z.lor 56320 (Z.land n 1023) in
    u_escape s1 ++ u_escape s2.

Definition encode_str (s : pstr) : pstr := 34 :: concat (map esc_char s) ++ [34].

Definition txt_null : pstr := [110; 117; 108; 108].
Definition txt_true : pstr := [116; 114; 117; 101].
Definition txt_false : pstr := [102; 97; 108; 115; 101].

(** [float.__repr__], except that the special values are written
    [NaN], [Infinity] and [-Infinity] ([allow_nan=True]). *)
Definition float_json (r : pstr) : pstr :=
  if pstr_eqb r (lit "nan") then lit "NaN"
  else if pstr_eqb r (lit "inf") then lit "Infinity"
  else if pstr_eqb r (lit "-inf") then lit "-Infinity"
  else r.

Definition encode_atom (v : json) : pstr :=
  match v with
  | JNull => txt_null
  | JBool true => txt_true
  | JBool false => txt_false
  | JInt z => int_repr z
  | JFloat r => float_json r
  | JStr s => encode_str s
  | _ => []
  end.

(** [json.dumps(v)] with [indent=None]: separators [', '] and [': ']. *)
Fixpoint dumps (v : json) : pstr :=
  match v with
  | JArr xs => 91 :: join [44; 32] (map dumps xs) ++ [93]
  | JObj kvs =>
    123 :: join [44; 32] (map (fun '(k, x) => encode_str k ++ [58; 32] ++ dumps x) kvs)
        ++ [125]
  | _ => encode_atom v
  end.

(** ['\n' + ' ' * indent * level] for [indent=2]. *)
Definition newline_indent (lvl : nat) : pstr := 10 :: repeat 32 (2 * lvl).

(** [json.dump(v, f, indent=2)] at nesting level [lvl]: item separator
    [','] followed by the newline indent, key separator [': '], empty
    containers as ["[]"] and ["{}"]. *)
Fixpoint dump_indent (lvl : nat) (v : json) {struct v} : pstr :=
  match v with
  | JArr [] => [91; 93]
  | JArr xs =>
    91 :: newline_indent (S lvl)
       ++ join (44 :: newline_indent (S lvl)) (map (dump_indent (S lvl)) xs)
       ++ newline_indent lvl ++ [93]
  | JObj [] => [123; 125]
  | JObj kvs =>
    123 :: newline_indent (S lvl)
        ++ join (44 :: newline_indent (S lvl))
                (map (fun '(k, x) => encode_str k ++ [58; 32] ++ dump_indent (S lvl) x) kvs)
        ++ newline_indent lvl ++ [125]
  | _ => encode_atom v
  end.

(** ** [json.loads] (CPython's C scanner, [strict=True])

    Errors carry the remaining input at the position CPython reports, so
    the position of a [JSONDecodeError] is [len(doc) - len(rest)].
    [OutOfFuel] cannot arise at the top level, which gives one unit of fuel
    per input character plus one (every nested call consumes a character).
    Integers above CPython's 4300-digit conversion limit and the
    interpreter's recursion limit are not modelled. *)
Inductive perr : Type :=
| DecodeError (msg : pstr) (rest : pstr)
| FloatLiteral
| OutOfFuel.

Inductive pres (A : Type) : Type :=
| POk (a : A) (rest : pstr)
| PErr (e : perr).
Arguments POk {A}.
Arguments PErr {A}.

Definition pres_map {A B : Type} (f : A -> B) (r : pres A) : pres B :=
  match r with
  | POk a rest => POk (f a) rest
  | PErr e => PErr e
  end.

Definition msg_expecting_value := lit "Expecting value".
Definition msg_propname := lit "Expecting property name enclosed in double quotes".
Definition msg_colon := lit "Expecting ':' delimiter".
Definition msg_comma := lit "Expecting ',' delimiter".
Definition msg_unterminated := lit "Unterminated string starting at".
Definition msg_control := lit "Invalid control character at".
Definition msg_invalid_escape := lit "Invalid \escape".
Definition msg_invalid_u := lit "Invalid \uXXXX escape".
Definition msg_extra := lit "Extra data".
Definition msg_bom := lit "Unexpected UTF-8 BOM (decode using utf-8-sig)".

(** JSON whitespace: space, tab, newline, carriage return. *)
Definition is_ws (c : Z) : bool := (c =? 32) || (c =? 9) || (c =? 10) || (c =? 13).

Fixpoint skip_ws (s : pstr) : pstr :=
  match s with
  | [] => []
  | c :: r => if is_ws c then skip_ws r else s
  end.

Definition hex_val (c : Z) : option Z :=
  if in_range 48 57 c then Some (c - 48)
  else if in_range 97 102 c then Some (c - 87)
  else if in_range 65 70 c then Some (c - 55)
  else None.

Definition hex4 (s : pstr) : option (Z * pstr) :=
  match s with
  | a :: b :: c :: d :: r =>
    match hex_val a, hex_val b, hex_val c, hex_val d with
    | Some x, Some y, Some z, Some w => Some (((x * 16 + y) * 16 + z) * 16 + w, r)
    | _, _, _, _ => None
    end
  | _ => None
  end.

Definition is_high_surrogate (c : Z) : bool := in_range 55296 56319 c.
Definition is_low_surrogate (c : Z) : bool := in_range 56320 57343 c.

(** [\uXXXX] after the ['u'] ([u_at] starts at the ['u']): a high surrogate
    followed by a [\u] escape of a low surrogate is joined into one code
    point ([Py_UNICODE_JOIN_SURROGATES]); otherwise the second escape is
    left for the next step. *)
Definition decode_u (u_at r : pstr) : perr + (Z * pstr) :=
  if (length r <? 5)%nat then inl (DecodeError msg_invalid_u u_at) else
  match hex4 r with
  | None => inl (DecodeError msg_invalid_u u_at)
  | Some (c, r1) =>
    if is_high_surrogate c && (7 <=? length r1)%nat then
      match r1 with
      | b :: u :: r2 =>
        if (b =? 92) && (u =? 117) then
          match hex4 r2 with
          | None => inl (DecodeError msg_invalid_u (u :: r2))
          | Some (c2, r3) =>
            if is_low_surrogate c2
            then inr (Z.lor (Z.shiftl (Z.land c 1023) 10) (Z.land c2 1023) + 65536, r3)
            else inr (c, r1)
          end
        else inr (c, r1)
      | _ => inr (c, r1)
      end
    else inr (c, r1)
  end.

Definition simple_escape (e : Z) : option Z :=
  if e =? 34 then Some 34
  else if e =? 92 then Some 92
  else if e =? 47 then Some 47
  else if e =? 98 then Some 8
  else if e =? 102 then Some 12
  else if e =? 110 then Some 10
  else if e =? 114 then Some 13
  else if e =? 116 then Some 9
  else None.

(** [scanstring]: [q] is the input from the opening quote, [s] the input
    still to scan. *)
Fixpoint scan_string (n : nat) (q s : pstr) : pres pstr :=
  match n with
  | O => PErr OutOfFuel
  | S n' =>
    match s with
    | [] => PErr (DecodeError msg_unterminated q)
    | c :: r =>
      if c =? 34 then POk [] r
      else if c =? 92 then
        match r with
        | [] => PErr (DecodeError msg_unterminated q)
        | e :: r' =>
          if e =? 117 then
            match decode_u r r' with
            | inl err => PErr err
            | inr (cp, r'') => pres_map (cons cp) (scan_string n' q r'')
            end
          else
            match simple_escape e with
            | Some c' => pres_map (cons c') (scan_string n' q r')
            | None => PErr (DecodeError msg_invalid_escape s)
            end
        end
      else if c <? 32 then PErr (DecodeError msg_control s)
      else pres_map (cons c) (scan_string n' q r)
    end
  end.

Fixpoint take_digits (s : pstr) : pstr * pstr :=
  match s with
  | [] => ([], [])
  | c :: r =>
    if in_range 48 57 c then let '(ds, r') := take_digits r in (c :: ds, r')
    else ([], s)
  end.

Definition digits_value (ds : pstr) : Z := fold_left (fun a d => a * 10 + (d - 48)) ds 0.

Definition is_digit (c : Z) : bool := in_range 48 57 c.

Definition starts_frac (r : pstr) : bool :=
  match r with
  | p :: d :: _ => (p =? 46) && is_digit d
  | _ => false
  end.

Definition starts_exp (r : pstr) : bool :=
  match r with
  | e :: r1 =>
    ((e =? 101) || (e =? 69)) &&
    match r1 with
    | sg :: r2 => if (sg =? 43) || (sg =? 45)
                  then match r2 with d :: _ => is_digit d | [] => false end
                  else is_digit sg
    | [] => false
    end
  | [] => false
  end.

(** [_match_number_unicode]: an optional ['-'], then ['0'] or a non-zero
    digit followed by digits.  A fraction or an exponent makes a float. *)
Definition match_number (s : pstr) : pres json :=
  let '(neg, s1) := match s with
                    | c :: r => if c =? 45 then (true, r) else (false, s)
                    | [] => (false, s)
                    end in
  let ip := match s1 with
            | c :: r =>
              if in_range 49 57 c then let '(ds, r') := take_digits r in Some (c :: ds, r')
              else if c =? 48 then Some ([c], r)
              else None
            | [] => None
            end in
  match ip with
  | None => PErr (DecodeError msg_expecting_value s)
  | Some (ds, r) =>
    if starts_frac r || starts_exp r then PErr FloatLiteral
    else POk (JInt (if neg then - digits_value ds else digits_value ds)) r
  end.

Definition txt_nan : pstr := lit "NaN".
Definition txt_infinity : pstr := lit "Infinity".
Definition txt_minus_infinity : pstr := lit "-Infinity".

(** [scan_once], [_parse_array] and [_parse_object]. *)
Fixpoint scan_once (n : nat) (s : pstr) {struct n} : pres json :=
  match n with
  | O => PErr OutOfFuel
  | S n' =>
    match s with
    | [] => PErr (DecodeError msg_expecting_value s)
    | c :: r =>
      if c =? 34 then pres_map JStr (scan_string n' s r)
      else if c =? 123 then
        let r1 := skip_ws r in
        match r1 with
        | d :: r2 =>
          if d =? 125 then POk (JObj []) r2
          else pres_map (fun ps => JObj (dict_of_pairs ps)) (obj_items n' r1)
        | [] => pres_map (fun ps => JObj (dict_of_pairs ps)) (obj_items n' r1)
        end
      else if c =? 91 then
        let r1 := skip_ws r in
        match r1 with
        | d :: r2 => if d =? 93 then POk (JArr []) r2 else pres_map JArr (arr_items n' r1)
        | [] => pres_map JArr (arr_items n' r1)
        end
      else if is_prefix txt_null s then POk JNull (skipn 4 s)
      else if is_prefix txt_true s then POk (JBool true) (skipn 4 s)
      else if is_prefix txt_false s then POk (JBool false) (skipn 5 s)
      else if is_prefix txt_nan s || is_prefix txt_infinity s
              || is_prefix txt_minus_infinity s then PErr FloatLiteral
      else match_number s
    end
  end
with arr_items (n : nat) (s : pstr) {struct n} : pres (list json) :=
  match n with
  | O => PErr OutOfFuel
  | S n' =>
    match scan_once n' s with
    | PErr e => PErr e
    | POk v r =>
      let r1 := skip_ws r in
      match r1 with
      | d :: r2 =>
        if d =? 93 then POk [v] r2
        else if d =? 44 then pres_map (cons v) (arr_items n' (skip_ws r2))
        else PErr (DecodeError msg_comma r1)
      | [] => PErr (DecodeError msg_comma r1)
      end
    end
  end
with obj_items (n : nat) (s : pstr) {struct n} : pres (list (pstr * json)) :=
  match n with
  | O => PErr OutOfFuel
  | S n' =>
    match s with
    | c :: r =>
      if c =? 34 then
        match scan_string n' s r with
        | PErr e => PErr e
        | POk k r1 =>
          let r2 := skip_ws r1 in
          match r2 with
          | d :: r3 =>
            if d =? 58 then
              match scan_once n' (skip_ws r3) with
              | PErr e => PErr e
              | POk v r4 =>
                let r5 := skip_ws r4 in
                match r5 with
                | e :: r6 =>
                  if e =? 125 then POk [(k, v)] r6
                  else if e =? 44 then pres_map (cons (k, v)) (obj_items n' (skip_ws r6))
                  else PErr (DecodeError msg_comma r5)
                | [] => PErr (DecodeError msg_comma r5)
                end
              end
            else PErr (DecodeError msg_colon r2)
          | [] => PErr (DecodeError msg_colon r2)
          end
        end
      else PErr (DecodeError msg_propname s)
    | [] => PErr (DecodeError msg_propname s)
    end
  end.

(** [json.loads(s)]: a leading BOM is refused, surrounding whitespace is
    skipped, anything after the value is ["Extra data"]. *)
Definition json_loads (s : pstr) : perr + json :=
  if is_prefix [65279] s then inl (DecodeError msg_bom s) else
  match scan_once (S (length s)) (skip_ws s) with
  | PErr e => inl e
  | POk v r =>
    match skip_ws r with
    | [] => inr v
    | r' => inl (DecodeError msg_extra r')
    end
  end.

(** [str(JSONDecodeError)]: ['%s: line %d column %d (char %d)']. *)
Definition nat_repr (n : nat) : pstr := int_repr (Z.of_nat n).

(** Characters after the last newline of [s] ([pos - s.rfind('\n') - 1]). *)
Fixpoint last_line_len (s : pstr) (acc : nat) : nat :=
  match s with
  | [] => acc
  | c :: r => if c =? 10 then last_line_len r O else last_line_len r (S acc)
  end.

Definition decode_error_text (doc msg rest : pstr) : pstr :=
  let pos := (length doc - length rest)%nat in
  let before := firstn pos doc in
  let lineno := S (length (filter (Z.eqb 10) before)) in
  let colno := S (last_line_len before O) in
  msg ++ lit ": line " ++ nat_repr lineno ++ lit " column " ++ nat_repr colno
      ++ lit " (char " ++ nat_repr pos ++ lit ")".

Example loads_ex1 :
  json_loads (lit "{`a`: [1, -20, true, null], `b`: `xé😀`, `a`: {}}") =
  inr (JObj [(lit "a", JObj []); (lit "b", JStr [120; 233; 128512])]).
Proof. vm_compute. reflexivity. Qed.

Example loads_ex2 : json_loads (lit "[1.5]") = inl FloatLiteral.
Proof. vm_compute. reflexivity. Qed.

Example dump_ex1 :
  dump_indent 0 (JObj [(lit "a", JArr [JInt 1; JStr [233]]); (lit "b", JArr [])]) =
  lit "{
  `a`: [
    1,
    `\u00e9`
  ],
  `b`: []
}".
Proof. vm_compute. reflexivity. Qed.

(** ** The process: file system, standard output and exit

    A run is a computation in a state-and-exception monad over the world:
    regular files (path and bytes, in directory-listing order),
    directories, and the lines printed on standard output.  An uncaught
    exception ends the process with status 1 (the traceback goes to
    standard error); [sys.exit(c)] ends it with status [c].  The argument
    of an [OSError] constructor is its [filename]; a [UnicodeDecodeError]
    holds no file name in Python, its argument only records which read
    failed. *)
Inductive exn : Type :=
| FileNotFoundError (path : pstr)
| IsADirectoryError (path : pstr)
| NotADirectoryError (path : pstr)
| FileExistsError (path : pstr)
| UnicodeDecodeError (path : pstr)
| UnicodeEncodeError (path : pstr)
| JSONDecodeError (msg doc rest : pstr)
| TypeError (msg : pstr)
| AttributeError (msg : pstr)
| OutsideModel.

Record world : Type := mkWorld {
  w_files : list (pstr * bytes);
  w_dirs : list pstr;
  w_stdout : list pstr
}.

Inductive outcome (A : Type) : Type :=
| Ret (a : A)
| Raise (e : exn)
| SysExit (code : Z).
Arguments Ret {A}.
Arguments Raise {A}.
Arguments SysExit {A}.

Definition M (A : Type) : Type := world -> outcome A * world.

Definition ret {A : Type} (a : A) : M A := fun w => (Ret a, w).

Definition bind {A B : Type} (m : M A) (k : A -> M B) : M B := fun w =>
  match m w with
  | (Ret a, w') => k a w'
  | (Raise e, w') => (Raise e, w')
  | (SysExit c, w') => (SysExit c, w')
  end.

Notation "x <- m ;; k" := (bind m (fun x => k))
  (at level 61, m at next level, right associativity).
Notation "m ;; k" := (bind m (fun _ => k)) (at level 61, right associativity).

Definition raise {A : Type} (e : exn) : M A := fun w => (Raise e, w).

Definition sys_exit {A : Type} (c : Z) : M A := fun w => (SysExit c, w).

(** [try: m except ...: h(e)] ([SystemExit] is not caught). *)
Definition try_except {A : Type} (m : M A) (h : exn -> M A) : M A := fun w =>
  match m w with
  | (Raise e, w') => h e w'
  | r => r
  end.


Definition print (line : pstr) : M unit := fun w =>
  (Ret tt, mkWorld (w_files w) (w_dirs w) (w_stdout w ++ [line])).

Fixpoint lookup_file (p : pstr) (fs : list (pstr * bytes)) : option bytes :=
  match fs with
  | [] => None
  | (p', b) :: fs' => if pstr_eqb p p' then Some b else lookup_file p fs'
  end.

Fixpoint set_file (p : pstr) (b : bytes) (fs : list (pstr * bytes)) : list (pstr * bytes) :=
  match fs with
  | [] => [(p, b)]
  | (p', b') :: fs' => if pstr_eqb p p' then (p', b) :: fs' else (p', b') :: set_file p b fs'
  end.

Definition is_dir (p : pstr) (w : world) : bool := existsb (pstr_eqb p) (w_dirs w).

Definition is_file (p : pstr) (w : world) : bool :=
  match lookup_file p (w_files w) with Some _ => true | None => false end.

(** [os.path.dirname]: the part before the last ['/']. *)
Fixpoint dirname_aux (cur seen : pstr) (s : pstr) : pstr :=
  match s with
  | [] => rev seen
  | c :: r => if c =? 47 then dirname_aux (c :: cur) cur r else dirname_aux (c :: cur) seen r
  end.

Definition dirname (p : pstr) : pstr := dirname_aux [] [] p.

(** The directories a lookup of [p] passes through: the prefix of [p]
    before each of its ['/'] (the empty one, the root of an absolute path,
    left out). *)
Fixpoint dir_prefixes (acc s : pstr) : list pstr :=
  match s with
  | [] => []
  | c :: r =>
    if c =? 47 then rev acc :: dir_prefixes (c :: acc) r else dir_prefixes (c :: acc) r
  end.

(** The first directory on the way to [p] that is a regular file: the
    lookup fails there with [ENOTDIR]. *)
Definition under_file (p : pstr) (w : world) : option pstr :=
  find (fun d => negb (pstr_eqb d []) && is_file d w) (dir_prefixes [] p).

(** [open(p).read()] in text mode (UTF-8, universal newlines). *)
Definition read_text (p : pstr) : M pstr := fun w =>
  match under_file p w with
  | Some _ => (Raise (NotADirectoryError p), w)
  | None =>
    if is_dir p w then (Raise (IsADirectoryError p), w) else
    match lookup_file p (w_files w) with
    | None => (Raise (FileNotFoundError p), w)
    | Some bs =>
      match utf8_decode bs with
      | None => (Raise (UnicodeDecodeError p), w)
      | Some cs => (Ret (translate_newlines cs), w)
      end
    end
  end.

(** [open(p, "w")] followed by writing [text]: the open needs the parent
    directory and truncates the file; the text is encoded as UTF-8. *)
Definition write_text (p text : pstr) : M unit := fun w =>
  if under_file p w then (Raise (NotADirectoryError p), w) else
  if is_dir p w then (Raise (IsADirectoryError p), w)
  else if negb (match dirname p with [] => true | d => is_dir d w end)
  then (Raise (FileNotFoundError p), w)
  else
    match utf8_encode text with
    | Some bs => (Ret tt, mkWorld (set_file p bs (w_files w)) (w_dirs w) (w_stdout w))
    | None => (Raise (UnicodeEncodeError p),
               mkWorld (set_file p [] (w_files w)) (w_dirs w) (w_stdout w))
    end.

(** The directory [p] and its ancestors, one per ['/'] of [p]. *)
Fixpoint slash_prefixes (acc s : pstr) : list pstr :=
  match s with
  | [] => [rev acc]
  | c :: r =>
    if c =? 47 then rev acc :: slash_prefixes (c :: acc) r else slash_prefixes (c :: acc) r
  end.

(** The error of [os.makedirs] at the first of the directories [ds] that
    is a regular file: [mkdir] of the next one fails with [ENOTDIR]; if it
    is the last one, [mkdir] fails with [EEXIST] and [exist_ok] does not
    apply to a file. *)
Fixpoint makedirs_error (ds : list pstr) (w : world) : option exn :=
  match ds with
  | [] => None
  | d :: ds' =>
    if is_file d w then
      Some (match ds' with [] => FileExistsError d | d' :: _ => NotADirectoryError d' end)
    else makedirs_error ds' w
  end.

(** [os.makedirs(p, exist_ok=True)]. *)
Definition makedirs (p : pstr) : M unit := fun w =>
  let ds := filter (fun d => negb (pstr_eqb d [])) (slash_prefixes [] p) in
  match makedirs_error ds w with
  | Some e => (Raise e, w)
  | None =>
    (Ret tt, mkWorld (w_files w)
                     (w_dirs w ++ filter (fun d => negb (is_dir d w)) ds)
                     (w_stdout w))
  end.

Definition ast_suffix : pstr := lit ".ast.json".

(** [glob.glob(dir + "/*.ast.json")]: the entries (files or directories)
    directly inside [dir], in listing order, whose name ends with
    [.ast.json] and does not start with a dot.  [dir] is taken literally,
    as [glob.glob] takes a directory without glob metacharacters; the
    theorems on [combine.py] assume [plain_name] of the repository name. *)
Definition glob_match (dir p : pstr) : bool :=
  let name := skipn (S (length dir)) p in
  is_prefix (dir ++ [47]) p
  && negb (existsb (Z.eqb 47) name)
  && ends_with ast_suffix name
  && negb (is_prefix [46] name).

Definition glob_ast (dir : pstr) : M (list pstr) := fun w =>
  (Ret (filter (glob_match dir) (map fst (w_files w) ++ w_dirs w)), w).

(** ** [combine.py] *)

(** [json.loads(open(p).read())]. *)
Definition load_json_file (p : pstr) : M json :=
  text <- read_text p ;;
  match json_loads text with
  | inr v => ret v
  | inl (DecodeError msg rest) => raise (JSONDecodeError msg text rest)
  | inl _ => raise OutsideModel
  end.

(** The loop over the AST dumps:
    [key = os.path.basename(f).replace(".ast.json", "")] and
    [bundle["ast"][key] = json.loads(open(f).read())]. *)
Fixpoint load_asts (paths : list pstr) (ast : dict) : M dict :=
  match paths with
  | [] => ret ast
  | f :: fs =>
    let key := py_replace_empty ast_suffix (basename f) in
    v <- load_json_file f ;;
    load_asts fs (dict_set key v ast)
  end.

Definition bundle_of (files : list pstr) (callgraph ctags clang_tidy cppcheck complexity : pstr)
    (ast : dict) : json :=
  JObj [(lit "files", JArr (map JStr files));
        (lit "callgraph", JStr callgraph);
        (lit "ctags", JStr ctags);
        (lit "clang_tidy", JStr clang_tidy);
        (lit "cppcheck", JStr cppcheck);
        (lit "complexity", JStr complexity);
        (lit "ast", JObj ast)].

(** The bundle dict as it is when [json.dump] is called. *)
Definition build_bundle (out_dir : pstr) : M json :=
  files <- read_text (out_dir ++ lit "/files.txt") ;;
  callgraph <- read_text (out_dir ++ lit "/cflow.txt") ;;
  ctags <- read_text (out_dir ++ lit "/ctags.txt") ;;
  clang_tidy <- read_text (out_dir ++ lit "/clang-tidy.txt") ;;
  cppcheck <- read_text (out_dir ++ lit "/cppcheck.xml") ;;
  complexity <- read_text (out_dir ++ lit "/complexity.txt") ;;
  paths <- glob_ast out_dir ;;
  ast <- load_asts paths [] ;;
  ret (bundle_of (splitlines files) callgraph ctags clang_tidy cppcheck complexity ast).

Definition raw_dir (repo_name : pstr) : pstr := lit "../outputs/raw/" ++ repo_name.
Definition combined_dir (repo_name : pstr) : pstr := lit "../outputs/combined/" ++ repo_name.
Definition bundle_path (repo_name : pstr) : pstr := combined_dir repo_name ++ lit "/bundle.json".

(** [combine.main()]; [argv] is [sys.argv], program name included. *)
Definition combine_main (argv : list pstr) : M unit :=
  if negb (length argv =? 2)%nat then
    print (lit "Usage: python combine.py <repo_name>") ;; sys_exit 1
  else
    let repo_name := nth 1 argv [] in
    makedirs (combined_dir repo_name) ;;
    bundle <- build_bundle (raw_dir repo_name) ;;
    write_text (bundle_path repo_name) (dump_indent 0 bundle) ;;
    print (lit "[INFO] Bundle created at " ++ bundle_path repo_name).

(** ** [render_html.py] *)

(** [str.isprintable] for a non-ASCII code point.  The Unicode database is
    not embedded: C1 controls, no-break space, soft hyphen, format
    characters of the General Punctuation block, line and paragraph
    separators, the BOM, surrogates, private use and unassigned code
    points beyond U+10FFFF are the non-printable ones here. *)
Definition unicode_printable (c : Z) : bool :=
  negb (in_range 127 160 c || (c =? 173) || in_range 8203 8207 c
        || in_range 8232 8238 c || in_range 8288 8303 c || (c =? 65279)
        || in_range 55296 63743 c || in_range 983040 1114111 c || (1114112 <=? c)).

Definition hex_digits (width : nat) (n : Z) : pstr :=
  map (fun i => hex_digit (Z.land (Z.shiftr n (4 * Z.of_nat i)) 15)) (rev (seq 0 width)).

(** One code point of [repr(str)] quoted with [quote]. *)
Definition repr_char (quote c : Z) : pstr :=
  if (c =? quote) || (c =? 92) then [92; c]
  else if c =? 9 then [92; 116]
  else if c =? 10 then [92; 110]
  else if c =? 13 then [92; 114]
  else if (c <? 32) || (c =? 127) then 92 :: 120 :: hex_digits 2 c
  else if c <? 127 then [c]
  else if unicode_printable c then [c]
  else if c <=? 255 then 92 :: 120 :: hex_digits 2 c
  else if c <=? 65535 then 92 :: 117 :: hex_digits 4 c
  else 92 :: 85 :: hex_digits 8 c.

(** [repr(str)]: single quotes unless the text holds a single quote and no
    double quote. *)
Definition repr_str (s : pstr) : pstr :=
  let quote := if existsb (Z.eqb 39) s && negb (existsb (Z.eqb 34) s) then 34 else 39 in
  quote :: concat (map (repr_char quote) s) ++ [quote].

Fixpoint py_repr (v : json) : pstr :=
  match v with
  | JNull => lit "None"
  | JBool true => lit "True"
  | JBool false => lit "False"
  | JInt z => int_repr z
  | JFloat r => r
  | JStr s => repr_str s
  | JArr xs => 91 :: join [44; 32] (map py_repr xs) ++ [93]
  | JObj kvs =>
    123 :: join [44; 32] (map (fun '(k, x) => repr_str k ++ [58; 32] ++ py_repr x) kvs)
        ++ [125]
  end.

(** [str(v)], which is what an f-string placeholder [{v}] inserts. *)
Definition py_str (v : json) : pstr :=
  match v with
  | JStr s => s
  | _ => py_repr v
  end.

Definition py_type_name (v : json) : pstr :=
  match v with
  | JNull => lit "NoneType"
  | JBool _ => lit "bool"
  | JInt _ => lit "int"
  | JFloat _ => lit "float"
  | JStr _ => lit "str"
  | JArr _ => lit "list"
  | JObj _ => lit "dict"
  end.

(** [len(v)]: [None] is the [TypeError] of an unsized value. *)
Definition py_len (v : json) : option nat :=
  match v with
  | JStr s => Some (length s)
  | JArr xs => Some (length xs)
  | JObj kvs => Some (length kvs)
  | _ => None
  end.

(** [for f in v]: characters of a string, items of a list, keys of a dict. *)
Definition py_iter (v : json) : option (list json) :=
  match v with
  | JStr s => Some (map (fun c => JStr [c]) s)
  | JArr xs => Some xs
  | JObj kvs => Some (map (fun kv => JStr (fst kv)) kvs)
  | _ => None
  end.
Definition tpl_0 : pstr := lit "<!DOCTYPE html>
<html lang=`en`>
<head>
    <meta charset=`UTF-8`>
    <meta name=`viewport` content=`width=device-width, initial-scale=1.0`>
    <title>Analysis Report: ".

Definition tpl_1 : pstr := lit "</title>
    <style>
        /* WHY: Inline CSS for self-contained HTML */
        body {
            font-family: 'Segoe UI', Tahoma, Geneva, Verdana, sans-serif;
            margin: 0;
            padding: 0;
            background-color: #f5f5f5;
        }
        
        .header {
            background: linear-gradient(135deg, #667eea 0%, #764ba2 100%);
            color: white;
            padding: 2rem;
            box-shadow: 0 2px 4px rgba(0,0,0,0.1);
        }
        
        .header h1 {
            margin: 0;
            font-size: 2.5rem;
        }
        
        .header .meta {
            opacity: 0.9;
            margin-top: 0.5rem;
        }
        
        .container {
            max-width: 1400px;
            margin: 2rem auto;
            padding: 0 2rem;
        }
        
        .summary {
            background: white;
            padding: 2rem;
            border-radius: 8px;
            box-shadow: 0 2px 8px rgba(0,0,0,0.1);
            margin-bottom: 2rem;
        }
        
        .summary .stats {
            display: grid;
            grid-template-columns: repeat(auto-fit, minmax(200px, 1fr));
            gap: 1rem;
            margin-top: 1rem;
        }
        
        .stat-box {
            background: #f8f9fa;
            padding: 1rem;
            border-radius: 4px;
            border-left: 4px solid #667eea;
        }
        
        .stat-box .label {
            font-size: 0.875rem;
            color: #666;
            margin-bottom: 0.25rem;
        }
        
        .stat-box .value {
            font-size: 1.5rem;
            font-weight: bold;
            color: #333;
        }
        
        .section {
            background: white;
            padding: 2rem;
            border-radius: 8px;
            box-shadow: 0 2px 8px rgba(0,0,0,0.1);
            margin-bottom: 2rem;
        }
        
        .section h2 {
            margin-top: 0;
            color: #667eea;
            border-bottom: 2px solid #667eea;
            padding-bottom: 0.5rem;
        }
        
        pre {
            background: #f8f9fa;
            padding: 1rem;
            border-radius: 4px;
            overflow-x: auto;
            max-height: 500px;
            overflow-y: auto;
        }
        
        .file-list {
            display: grid;
            grid-template-columns: repeat(auto-fill, minmax(300px, 1fr));
            gap: 0.5rem;
        }
        
        .file-item {
            padding: 0.5rem;
            background: #f8f9fa;
            border-radius: 4px;
            font-family: 'Courier New', monospace;
            font-size: 0.875rem;
        }
        
        .collapsible {
            cursor: pointer;
            user-select: none;
            padding: 0.5rem;
            background: #667eea;
            color: white;
            border: none;
            border-radius: 4px;
            width: 100%;
            text-align: left;
            font-size: 1rem;
            margin-bottom: 0.5rem;
        }
        
        .collapsible:hover {
            background: #5568d3;
        }
        
        .content {
            display: none;
            padding: 1rem 0;
        }
        
        .content.active {
            display: block;
        }
    </style>
</head>
<body>
    <div class=`header`>
        <h1>📊 Static Analysis Report</h1>
        <div class=`meta`>
            <strong>Repository:</strong> ".

Definition tpl_2 : pstr := lit " | 
            <strong>Generated:</strong> ".

Definition tpl_3 : pstr := lit "
        </div>
    </div>
    
    <div class=`container`>
        <!-- Summary Statistics -->
        <div class=`summary`>
            <h2>Summary</h2>
            <div class=`stats`>
                <div class=`stat-box`>
                    <div class=`label`>Total Files</div>
                    <div class=`value`>".

Definition tpl_4 : pstr := lit "</div>
                </div>
                <div class=`stat-box`>
                    <div class=`label`>AST Dumps</div>
                    <div class=`value`>".

Definition tpl_5 : pstr := lit "</div>
                </div>
                <div class=`stat-box`>
                    <div class=`label`>Analysis Tools</div>
                    <div class=`value`>7</div>
                </div>
            </div>
        </div>
        
        <!-- File List -->
        <div class=`section`>
            <button class=`collapsible`>📁 File List (".

Definition tpl_6 : pstr := lit " files)</button>
            <div class=`content`>
                <div class=`file-list`>
                    ".

Definition tpl_7 : pstr := lit "
                </div>
            </div>
        </div>
        
        <!-- Call Graph -->
        <div class=`section`>
            <button class=`collapsible`>🔗 Call Graph (cflow)</button>
            <div class=`content`>
                <pre>".

Definition tpl_8 : pstr := lit "</pre>
            </div>
        </div>
        
        <!-- Symbol Tags -->
        <div class=`section`>
            <button class=`collapsible`>🏷️ Symbol Tags (ctags)</button>
            <div class=`content`>
                <pre>".

Definition tpl_9 : pstr := lit "</pre>
            </div>
        </div>
        
        <!-- Static Analysis Warnings -->
        <div class=`section`>
            <button class=`collapsible`>⚠️ Static Warnings (clang-tidy)</button>
            <div class=`content`>
                <pre>".

Definition tpl_10 : pstr := lit "</pre>
            </div>
        </div>
        
        <!-- Code Quality -->
        <div class=`section`>
            <button class=`collapsible`>✅ Code Quality (cppcheck)</button>
            <div class=`content`>
                <pre>".

Definition tpl_11 : pstr := lit "</pre>
            </div>
        </div>
        
        <!-- Complexity Metrics -->
        <div class=`section`>
            <button class=`collapsible`>📈 Complexity Metrics (lizard)</button>
            <div class=`content`>
                <pre>".

Definition tpl_12 : pstr := lit "</pre>
            </div>
        </div>
        
        <!-- AST Explorer -->
        <div class=`section`>
            <button class=`collapsible`>🌳 AST Explorer (".

Definition tpl_13 : pstr := lit " files)</button>
            <div class=`content`>
                <p><em>AST data available for ".

Definition tpl_14 : pstr := lit " C files. View in browser console or download bundle.json for programmatic access.</em></p>
                <button onclick=`console.log(astData)`>Log AST to Console</button>
            </div>
        </div>
    </div>
    
    <script>
        // WHY: Store AST data for browser console access
        const astData = ".

Definition tpl_15 : pstr := lit ";
        
        // WHY: Make all sections collapsible for better navigation
        const collapsibles = document.querySelectorAll('.collapsible');
        collapsibles.forEach(button => {
            button.addEventListener('click', function() {
                this.classList.toggle('active');
                const content = this.nextElementSibling;
                content.classList.toggle('active');
            });
        });
    </script>
</body>
</html>
".

(** [f'<div class="file-item">{f}</div>'] *)
Definition file_item (f : json) : pstr :=
  lit "<div class=`file-item`>" ++ py_str f ++ lit "</div>".

(** The f-string of [generate_html_template] with its placeholders filled. *)
Definition html_page (repo_name timestamp file_count ast_count file_items callgraph ctags
    clang_tidy cppcheck complexity ast_json : pstr) : pstr :=
  tpl_0 ++ repo_name ++ tpl_1 ++ repo_name ++ tpl_2 ++ timestamp ++ tpl_3 ++ file_count
  ++ tpl_4 ++ ast_count ++ tpl_5 ++ file_count ++ tpl_6 ++ file_items ++ tpl_7 ++ callgraph
  ++ tpl_8 ++ ctags ++ tpl_9 ++ clang_tidy ++ tpl_10 ++ cppcheck ++ tpl_11 ++ complexity
  ++ tpl_12 ++ ast_count ++ tpl_13 ++ ast_count ++ tpl_14 ++ ast_json ++ tpl_15.

Definition no_len (v : json) : exn :=
  TypeError (lit "object of type '" ++ py_type_name v ++ lit "' has no len()").

(** [generate_html_template(repo_name, bundle)]; [timestamp] is the value
    of [datetime.now().strftime("%Y-%m-%d %H:%M:%S")]. *)
Definition generate_html_template (repo_name timestamp : pstr) (bundle : json) : outcome pstr :=
  match bundle with
  | JObj d =>
    let files := py_get d (lit "files") (JArr []) in
    let ast := py_get d (lit "ast") (JObj []) in
    match py_len files with
    | None => Raise (no_len files)
    | Some file_count =>
      match py_len ast with
      | None => Raise (no_len ast)
      | Some ast_count =>
        match py_iter files with
        | None => Raise (no_len files)
        | Some fs =>
          Ret (html_page repo_name timestamp (nat_repr file_count) (nat_repr ast_count)
                 (concat (map file_item fs))
                 (py_str (py_get d (lit "callgraph") (JStr (lit "No call graph data"))))
                 (py_str (py_get d (lit "ctags") (JStr (lit "No ctags data"))))
                 (py_str (py_get d (lit "clang_tidy") (JStr (lit "No clang-tidy data"))))
                 (py_str (py_get d (lit "cppcheck") (JStr (lit "No cppcheck data"))))
                 (py_str (py_get d (lit "complexity") (JStr (lit "No complexity data"))))
                 (dumps ast))
        end
      end
    end
  | _ => Raise (AttributeError (lit "'" ++ py_type_name bundle ++ lit "' object has no attribute 'get'"))
  end.

(** [os.path.abspath] relative to the working directory [cwd]. *)
Fixpoint split_slash (cur s : pstr) : list pstr :=
  match s with
  | [] => [rev cur]
  | c :: r => if c =? 47 then rev cur :: split_slash [] r else split_slash (c :: cur) r
  end.

Definition norm_step (acc : list pstr) (c : pstr) : list pstr :=
  if pstr_eqb c [] || pstr_eqb c [46] then acc
  else if pstr_eqb c [46; 46] then tl acc
  else c :: acc.

Definition abspath (cwd p : pstr) : pstr :=
  let full := if is_prefix [47] p then p else cwd ++ [47] ++ p in
  47 :: join [47] (rev (fold_left norm_step (split_slash [] full) [])).

Definition final_dir (repo_name : pstr) : pstr := lit "../outputs/final/" ++ repo_name.
Definition report_path (repo_name : pstr) : pstr := final_dir repo_name ++ lit "/report.html".

(** The [except] clauses around [json.load]. *)
Definition bundle_load_handler (repo_name : pstr) (e : exn) : M json :=
  match e with
  | FileNotFoundError _ =>
    print (lit "ERROR: Bundle not found at " ++ bundle_path repo_name) ;;
    print [] ;;
    print (lit "Run combine.py first:") ;;
    print (lit "  python combine.py " ++ repo_name) ;;
    sys_exit 1
  | JSONDecodeError msg doc rest =>
    print (lit "ERROR: Invalid JSON in bundle: " ++ decode_error_text doc msg rest) ;;
    print [] ;;
    print (lit "Bundle may be corrupted. Re-run combine.py:") ;;
    print (lit "  python combine.py " ++ repo_name) ;;
    sys_exit 1
  | e => raise e
  end.

(** [render_html.main()]; [argv] is [sys.argv], [cwd] the working
    directory and [timestamp] the clock reading. *)
Definition render_main (cwd timestamp : pstr) (argv : list pstr) : M unit :=
  if negb (length argv =? 2)%nat then
    print (lit "Usage: python render_html.py <repo_name>") ;; sys_exit 1
  else
    let repo_name := nth 1 argv [] in
    makedirs (final_dir repo_name) ;;
    bundle <- try_except (load_json_file (bundle_path repo_name))
                         (bundle_load_handler repo_name) ;;
    html_content <- (fun w => (generate_html_template repo_name timestamp bundle, w)) ;;
    write_text (report_path repo_name) html_content ;;
    print (lit "[INFO] HTML report created at " ++ report_path repo_name) ;;
    print (lit "[INFO] Open in browser: file://" ++ abspath cwd (report_path repo_name)).

(** ** Concrete runs *)

(** The bytes of a Rocq string literal (UTF-8 source bytes; backquote for
    a double quote, as in [lit]). *)
Definition bytes_of (s : string) : bytes :=
  map (fun a => let z := Z.of_nat (nat_of_ascii a) in if z =? 96 then 34 else z)
      (list_ascii_of_string s).

Definition raw_file (repo name : string) (content : string) : pstr * bytes :=
  (raw_dir (lit repo) ++ [47] ++ lit name, bytes_of content).

(** The end-to-end scenario of the specification. *)
Definition scenario_world : world :=
  mkWorld [raw_file "demo" "files.txt" "a.c
b.c
";
           raw_file "demo" "cflow.txt" "a->b";
           raw_file "demo" "ctags.txt" "";
           raw_file "demo" "clang-tidy.txt" "";
           raw_file "demo" "cppcheck.xml" "";
           raw_file "demo" "complexity.txt" "";
           raw_file "demo" "a.c.ast.json" "{`type`:`TranslationUnit`}"]
          [lit ".."; lit "../outputs"; lit "../outputs/raw"; raw_dir (lit "demo")]
          [].


(** The directories [os.makedirs] adds. *)
Definition makedirs_added (p : pstr) (w : world) : list pstr :=
  filter (fun d => negb (is_dir d w))
         (filter (fun d => negb (pstr_eqb d [])) (slash_prefixes [] p)).

(** Arguments and clock of the concrete runs of [render_html.py]. *)
Definition cwd_demo : pstr := lit "/home/u/pipeline".
Definition ts_demo : pstr := lit "2026-10-18 12:00:00".
Definition render_argv : list pstr := [lit "render_html.py"; lit "demo"].

(** The four lines printed by the [FileNotFoundError] handler. *)
Definition not_found_lines (repo_name : pstr) : list pstr :=
  [lit "ERROR: Bundle not found at " ++ bundle_path repo_name; [];
   lit "Run combine.py first:"; lit "  python combine.py " ++ repo_name].

(** The four lines printed by the [JSONDecodeError] handler. *)
Definition invalid_json_lines (repo_name msg doc rest : pstr) : list pstr :=
  [lit "ERROR: Invalid JSON in bundle: " ++ decode_error_text doc msg rest; [];
   lit "Bundle may be corrupted. Re-run combine.py:"; lit "  python combine.py " ++ repo_name].

(** The world after a successful [os.makedirs(p)]. *)
Definition after_makedirs (p : pstr) (w : world) : world :=
  mkWorld (w_files w) (w_dirs w ++ makedirs_added p w) (w_stdout w).

(** A [bundle.json] whose bytes are not UTF-8. *)
Definition undecodable_bundle_world : world :=
  mkWorld [(bundle_path (lit "demo"), [255])]
          [lit ".."; lit "../outputs"; lit "../outputs/combined"; combined_dir (lit "demo")] [].







(** A bundle whose call graph mentions a header in angle brackets. *)
Definition stdio_bundle : json := JObj [(lit "callgraph", JStr (lit "<stdio.h>"))].

(** A bundle whose AST data holds the closing tag of a script block. *)
Definition script_bundle : json :=
  JObj [(lit "ast", JObj [(lit "a.c", JStr (lit "</script>"))])].

(** A bundle with [files] set to [null]. *)
Definition null_files_bundle : json := JObj [(lit "files", JNull)].

(** The [.get] defaults of [generate_html_template]. *)
Definition render_defaults : list (pstr * json) :=
  [(lit "files", JArr []); (lit "ast", JObj []);
   (lit "callgraph", JStr (lit "No call graph data")); (lit "ctags", JStr (lit "No ctags data"));
   (lit "clang_tidy", JStr (lit "No clang-tidy data"));
   (lit "cppcheck", JStr (lit "No cppcheck data"));
   (lit "complexity", JStr (lit "No complexity data"))].

(** [len(v)] and [for f in v] are defined for [v]. *)
Definition sized (v : json) : Prop := py_len v <> None.

(** A raw directory whose one AST dump has [.ast.json] twice in its name. *)
Definition suffix_twice_world : world :=
  mkWorld [raw_file "demo" "files.txt" "x.ast.json.c
";
           raw_file "demo" "cflow.txt" ""; raw_file "demo" "ctags.txt" "";
           raw_file "demo" "clang-tidy.txt" ""; raw_file "demo" "cppcheck.xml" "";
           raw_file "demo" "complexity.txt" "";
           raw_file "demo" "x.ast.json.c.ast.json" "{}"]
          [lit ".."; lit "../outputs"; lit "../outputs/raw"; raw_dir (lit "demo")]
          [].

(** ** Well-formed values and the induction principle of [json] *)

Section JsonInd.
Variable P : json -> Prop.
Hypothesis HNull : P JNull.
Hypothesis HBool : forall b, P (JBool b).
Hypothesis HInt : forall z, P (JInt z).
Hypothesis HFloat : forall r, P (JFloat r).
Hypothesis HStr : forall s, P (JStr s).
Hypothesis HArr : forall xs, Forall P xs -> P (JArr xs).
Hypothesis HObj : forall kvs, Forall (fun kv => P (snd kv)) kvs -> P (JObj kvs).

Fixpoint json_ind' (v : json) : P v :=
  match v with
  | JNull => HNull
  | JBool b => HBool b
  | JInt z => HInt z
  | JFloat r => HFloat r
  | JStr s => HStr s
  | JArr xs =>
    HArr xs ((fix go (xs : list json) : Forall P xs :=
                match xs with
                | [] => Forall_nil _
                | x :: xs' => Forall_cons _ (json_ind' x) (go xs')
                end) xs)
  | JObj kvs =>
    HObj kvs ((fix go (kvs : list (pstr * json)) : Forall (fun kv => P (snd kv)) kvs :=
                 match kvs with
                 | [] => Forall_nil _
                 | (k, x) :: kvs' => Forall_cons (k, x) (json_ind' x) (go kvs')
                 end) kvs)
  end.
End JsonInd.

(** A character of the [json.dump] output: newline or printable ASCII. *)
Definition out_char (c : Z) : bool := (c =? 10) || in_range 32 126 c.


(** A character of a file name as [os.listdir] returns it ([surrogateescape]
    only produces low surrogates). *)
Definition path_char_ok (c : Z) : bool := in_range 0 1114111 c && negb (is_high_surrogate c).

Definition path_ok (p : pstr) : bool := forallb path_char_ok p.

(** No high surrogate directly followed by a low one: such a pair would be
    read back as one astral code point. *)
Fixpoint no_pairb (s : pstr) : bool :=
  match s with
  | c :: ((c' :: _) as r) => negb (is_high_surrogate c && is_low_surrogate c') && no_pairb r
  | _ => true
  end.

Definition str_ok (s : pstr) : bool := forallb (in_range 0 1114111) s && no_pairb s.

Fixpoint nodupb (ks : list pstr) : bool :=
  match ks with
  | [] => true
  | k :: ks' => negb (existsb (pstr_eqb k) ks') && nodupb ks'
  end.

(** Values that survive [json.dump] and [json.loads] in the embedding: no
    float, strings and keys [str_ok], keys of an object distinct. *)
Fixpoint json_ok (v : json) : bool :=
  match v with
  | JFloat _ => false
  | JStr s => str_ok s
  | JArr xs => forallb json_ok xs
  | JObj kvs =>
    nodupb (map fst kvs) && forallb (fun '(k, x) => str_ok k && json_ok x) kvs
  | _ => true
  end.

(** What may follow a value in the output of [json.dump]. *)
Definition end_ok (t : pstr) : Prop :=
  match t with [] => True | c :: _ => c = 44 \/ c = 10 end.

Definition suffix (r s : pstr) : Prop := exists p, s = p ++ r.








(** ** General lemmas *)

Lemma pstr_eqb_true (a b : pstr) : pstr_eqb a b = true <-> a = b.
Proof.
  unfold pstr_eqb; destruct (list_eq_dec Z.eq_dec a b); split; congruence.
Qed.

Lemma pstr_eqb_refl (a : pstr) : pstr_eqb a a = true.
Proof. apply pstr_eqb_true; reflexivity. Qed.

Lemma pstr_eqb_false (a b : pstr) : pstr_eqb a b = false <-> a <> b.
Proof.
  unfold pstr_eqb; destruct (list_eq_dec Z.eq_dec a b); split; congruence.
Qed.

Lemma is_prefix_app (p s : pstr) : is_prefix p (p ++ s) = true.
Proof. induction p as [|a p IH]; simpl; [reflexivity|]. rewrite Z.eqb_refl; exact IH. Qed.

Lemma is_prefix_trans (a b c : pstr) :
  is_prefix a b = true -> is_prefix b c = true -> is_prefix a c = true.
Proof.
  revert b c; induction a as [|x a IH]; intros b c Hab Hbc; [reflexivity|].
  destruct b as [|y b]; [discriminate|]; destruct c as [|z c]; [discriminate|].
  simpl in *; apply andb_true_iff in Hab as [H1 H2]; apply andb_true_iff in Hbc as [H3 H4].
  apply Z.eqb_eq in H1, H3; subst; rewrite Z.eqb_refl; simpl; eauto.
Qed.

Lemma slash_prefixes_prefix (s acc d : pstr) :
  In d (slash_prefixes acc s) -> is_prefix d (rev acc ++ s) = true.
Proof.
  revert acc; induction s as [|c s IH]; intros acc Hin; simpl in Hin.
  - destruct Hin as [<-|[]]; rewrite app_nil_r.
    rewrite <- (app_nil_r (rev acc)) at 2; apply is_prefix_app.
  - replace (rev acc ++ c :: s) with (rev (c :: acc) ++ s)
      by (simpl; rewrite <- app_assoc; reflexivity).
    destruct (c =? 47); [destruct Hin as [<-|Hin]|]; auto.
    cbn [rev]; rewrite <- app_assoc; apply is_prefix_app.
Qed.




Lemma read_text_missing (p : pstr) (w : world) :
  under_file p w = None -> is_dir p w = false -> is_file p w = false ->
  read_text p w = (Raise (FileNotFoundError p), w).
Proof.
  unfold read_text, is_file; intros Hu Hd Hf; rewrite Hu, Hd.
  destruct (lookup_file p (w_files w)); [discriminate|reflexivity].
Qed.

Lemma read_text_ok (p : pstr) (w : world) (bs cs : bytes) :
  under_file p w = None -> is_dir p w = false ->
  lookup_file p (w_files w) = Some bs -> utf8_decode bs = Some cs ->
  read_text p w = (Ret (translate_newlines cs), w).
Proof. unfold read_text; intros -> -> -> ->; reflexivity. Qed.



Lemma bind_ret_eq {A B : Type} (m : M A) (k : A -> M B) (w w' : world) (a : A) :
  m w = (Ret a, w') -> bind m k w = k a w'.
Proof. unfold bind; intros ->; reflexivity. Qed.

Lemma bind_raise_eq {A B : Type} (m : M A) (k : A -> M B) (w w' : world) (e : exn) :
  m w = (Raise e, w') -> bind m k w = (Raise e, w').
Proof. unfold bind; intros ->; reflexivity. Qed.

Lemma makedirs_cases (p : pstr) (w : world) :
  (exists e, makedirs p w = (Raise e, w)) \/
  makedirs p w = (Ret tt, mkWorld (w_files w) (w_dirs w ++ makedirs_added p w) (w_stdout w)).
Proof.
  unfold makedirs, makedirs_added.
  destruct (makedirs_error _ _); [left; eauto | right; reflexivity].
Qed.


Lemma makedirs_added_prefix (p d : pstr) (w : world) :
  In d (makedirs_added p w) -> is_prefix d p = true.
Proof.
  unfold makedirs_added; intros H.
  apply filter_In in H as [H _]; apply filter_In in H as [H _].
  apply slash_prefixes_prefix in H; exact H.
Qed.

Lemma is_dir_after_makedirs (p q : pstr) (w : world) :
  is_prefix q p = false ->
  is_dir q (mkWorld (w_files w) (w_dirs w ++ makedirs_added p w) (w_stdout w)) = is_dir q w.
Proof.
  intros Hq; unfold is_dir; simpl; rewrite existsb_app.
  destruct (existsb (pstr_eqb q) (makedirs_added p w)) eqn:E.
  - apply existsb_exists in E as [d [Hin Heq]]; apply pstr_eqb_true in Heq; subst d.
    apply makedirs_added_prefix in Hin; congruence.
  - apply orb_false_r.
Qed.

Lemma bind_try_raise {A B : Type} (m : M A) (h : exn -> M A) (k : A -> M B) (w w' : world) (e : exn) :
  m w = (Raise e, w') -> bind (try_except m h) k w = bind (h e) k w'.
Proof. unfold bind, try_except; intros ->; reflexivity. Qed.

Lemma bundle_not_prefix_final (repo : pstr) : is_prefix (bundle_path repo) (final_dir repo) = false.
Proof. vm_compute. reflexivity. Qed.












Lemma dict_lookup_app_missing (d : dict) (k k' : pstr) (v : json) :
  dict_lookup k d = None ->
  dict_lookup k' (d ++ [(k, v)]) =
    match dict_lookup k' d with Some x => Some x | None => if pstr_eqb k' k then Some v else None end.
Proof.
  induction d as [|[k0 v0] d IH]; intros Hk; simpl in *; [reflexivity|].
  destruct (pstr_eqb k k0) eqn:E; [discriminate|].
  destruct (pstr_eqb k' k0); auto.
Qed.

Lemma py_get_app_missing (d : dict) (k k' : pstr) (v dflt : json) :
  dict_lookup k d = None -> (pstr_eqb k' k = false \/ v = dflt) ->
  py_get (d ++ [(k, v)]) k' dflt = py_get d k' dflt.
Proof.
  intros Hk Hc; unfold py_get; rewrite dict_lookup_app_missing by exact Hk.
  destruct (dict_lookup k' d); [reflexivity|].
  destruct (pstr_eqb k' k) eqn:E; [destruct Hc as [Hc|Hc]; congruence|reflexivity].
Qed.


Lemma translate_newlines_id (s : pstr) :
  Forall (fun c => c <> 13) s -> translate_newlines s = s.
Proof.
  induction s as [|c s IH]; intros H; [reflexivity|].
  inversion_clear H as [|? ? Hc Hs]; simpl.
  rewrite (proj2 (Z.eqb_neq c 13) Hc), IH by exact Hs; reflexivity.
Qed.

Lemma splitlines_aux_line (cur l r : pstr) :
  forallb (fun c => negb (is_line_boundary c)) l = true ->
  splitlines_aux cur (l ++ 10 :: r) = (rev cur ++ l) :: splitlines_aux [] r.
Proof.
  revert cur; induction l as [|c l IH]; intros cur Hl.
  - rewrite app_nil_r; reflexivity.
  - simpl in Hl; apply andb_true_iff in Hl as [Hc Hl].
    apply negb_true_iff in Hc.
    assert (H13 : (c =? 13) = false)
      by (apply Z.eqb_neq; intros ->; discriminate).
    simpl; rewrite H13, Hc, IH by exact Hl; simpl; rewrite <- app_assoc; reflexivity.
Qed.

Lemma splitlines_terminated (ls : list pstr) :
  Forall (fun l => forallb (fun c => negb (is_line_boundary c)) l = true) ls ->
  splitlines (concat (map (fun l => l ++ [10]) ls)) = ls.
Proof.
  unfold splitlines; induction ls as [|l ls IH]; intros H; [reflexivity|].
  inversion_clear H as [|? ? Hl Hls]; simpl.
  rewrite <- app_assoc; simpl; rewrite splitlines_aux_line by exact Hl.
  rewrite IH by exact Hls; reflexivity.
Qed.

Lemma terminated_no_cr (ls : list pstr) :
  Forall (fun l => forallb (fun c => negb (is_line_boundary c)) l = true) ls ->
  Forall (fun c => c <> 13) (concat (map (fun l => l ++ [10]) ls)).
Proof.
  intros H; apply Forall_forall; intros c Hc.
  apply in_concat in Hc as [x [Hx Hc]]; apply in_map_iff in Hx as [l [<- Hl]].
  rewrite Forall_forall in H; specialize (H l Hl).
  apply in_app_or in Hc as [Hc|[<-|[]]]; [|discriminate].
  intros ->; rewrite forallb_forall in H; specialize (H 13 Hc); discriminate.
Qed.




Lemma generate_bundle_of (repo_name timestamp : pstr) files cg ct tidy cpp cx ast :
  generate_html_template repo_name timestamp (bundle_of files cg ct tidy cpp cx ast) =
  Ret (html_page repo_name timestamp (nat_repr (length (map JStr files))) (nat_repr (length ast))
         (concat (map file_item (map JStr files))) cg ct tidy cpp cx (dumps (JObj ast))).
Proof. reflexivity. Qed.

Lemma render_bundle_absent (cwd ts prog repo : pstr) (w : world)
  (Hanc : under_file (bundle_path repo) w = None)
  (Hdir : is_dir (bundle_path repo) w = false) (Hfile : is_file (bundle_path repo) w = false) :
  (exists e, render_main cwd ts [prog; repo] w = (Raise e, w)) \/
  render_main cwd ts [prog; repo] w =
    (SysExit 1, mkWorld (w_files w) (w_dirs w ++ makedirs_added (final_dir repo) w)
                        (w_stdout w ++ not_found_lines repo)).
Proof.
  unfold render_main; cbn [length Nat.eqb negb nth].
  destruct (makedirs_cases (final_dir repo) w) as [[e Hd]|Hd].
  - left; exists e; apply (bind_raise_eq _ _ _ _ _ Hd).
  - right; rewrite (bind_ret_eq _ _ _ _ _ Hd); cbv beta.
    erewrite bind_try_raise.
    2:{ unfold load_json_file; apply bind_raise_eq, read_text_missing; [exact Hanc| |exact Hfile].
        unfold after_makedirs; rewrite is_dir_after_makedirs;
          [exact Hdir | apply bundle_not_prefix_final]. }
    unfold bundle_load_handler, bind, print, sys_exit; simpl.
    rewrite <- !app_assoc; reflexivity.
Qed.

Lemma render_bundle_invalid_json (cwd ts prog repo : pstr) (w : world) (bs cs msg rest : pstr)
  (Hanc : under_file (bundle_path repo) w = None)
  (Hdir : is_dir (bundle_path repo) w = false)
  (Hfile : lookup_file (bundle_path repo) (w_files w) = Some bs)
  (Hdec : utf8_decode bs = Some cs)
  (Hbad : json_loads (translate_newlines cs) = inl (DecodeError msg rest)) :
  (exists e, render_main cwd ts [prog; repo] w = (Raise e, w)) \/
  render_main cwd ts [prog; repo] w =
    (SysExit 1, mkWorld (w_files w) (w_dirs w ++ makedirs_added (final_dir repo) w)
                        (w_stdout w ++ invalid_json_lines repo msg (translate_newlines cs) rest)).
Proof.
  unfold render_main; cbn [length Nat.eqb negb nth].
  destruct (makedirs_cases (final_dir repo) w) as [[e Hd]|Hd].
  - left; exists e; apply (bind_raise_eq _ _ _ _ _ Hd).
  - right; rewrite (bind_ret_eq _ _ _ _ _ Hd); cbv beta.
    erewrite bind_try_raise.
    2:{ unfold load_json_file; erewrite bind_ret_eq.
        2:{ apply (read_text_ok _ _ bs cs); [exact Hanc| |exact Hfile|exact Hdec].
            rewrite is_dir_after_makedirs, Hdir; [reflexivity | apply bundle_not_prefix_final]. }
        rewrite Hbad; reflexivity. }
    unfold bundle_load_handler, bind, print, sys_exit; simpl.
    rewrite <- !app_assoc; reflexivity.
Qed.


Lemma py_len_iter (v : json) (n : nat) :
  py_len v = Some n -> exists fs, py_iter v = Some fs.
Proof. destruct v; simpl; intros H; try discriminate; eauto. Qed.


(** * The claims *)

(** C1 (failing input): the call graph [<stdio.h>] is embedded verbatim
    between [<pre>] and [</pre>]; no [&lt;] entity appears in the page. *)
Lemma render_stdio_unescaped :
  match generate_html_template (lit "demo") ts_demo stdio_bundle with
  | Ret html => is_infix (lit "<pre><stdio.h></pre>") html = true /\
                is_infix (lit "&lt;") html = false
  | _ => False
  end.
Proof. vm_compute. split; reflexivity. Qed.




(** C3 (failing input): with the AST string [</script>], the first
    [</script>] of the page comes before the script statement
    [const collapsibles], so the script block closes inside the AST data. *)
Lemma render_script_close_early :
  match generate_html_template (lit "demo") ts_demo script_bundle with
  | Ret html =>
    match find_sub (lit "</script>") html, find_sub (lit "const collapsibles") html with
    | Some i, Some j => (i < j)%nat
    | _, _ => False
    end
  | _ => False
  end.
Proof. vm_compute. lia. Qed.

(** C5 (failing input): the dump [x.ast.json.c.ast.json] is stored under
    the key [x.c], not [x.ast.json.c]: [str.replace] removes every
    [.ast.json] of the name. *)
Lemma ast_key_suffix_twice :
  fst (build_bundle (raw_dir (lit "demo")) suffix_twice_world) =
  Ret (bundle_of [lit "x.ast.json.c"] [] [] [] [] [] [(lit "x.c", JObj [])]).
Proof. vm_compute. reflexivity. Qed.




(** C7 (failing input): a [bundle.json] whose bytes are not UTF-8 makes the
    renderer end in an uncaught [UnicodeDecodeError]; neither the
    [Invalid JSON] message nor any other line is printed, and no report is
    written. *)
Lemma render_undecodable_bundle :
  let '(o, w') := render_main cwd_demo ts_demo render_argv undecodable_bundle_world in
  o = Raise (UnicodeDecodeError (bundle_path (lit "demo"))) /\ w_stdout w' = [] /\
  is_file (report_path (lit "demo")) w' = false.
Proof. vm_compute. repeat split. Qed.




(** C9: with an argument count other than one positional argument, both
    commands print their usage line and exit with status 1, with files and
    directories unchanged. *)
Lemma usage_error_exit (cwd timestamp : pstr) (argv : list pstr) (w : world)
  (Hargc : length argv <> 2%nat) :
  combine_main argv w =
    (SysExit 1, mkWorld (w_files w) (w_dirs w)
                        (w_stdout w ++ [lit "Usage: python combine.py <repo_name>"])) /\
  render_main cwd timestamp argv w =
    (SysExit 1, mkWorld (w_files w) (w_dirs w)
                        (w_stdout w ++ [lit "Usage: python render_html.py <repo_name>"])).
Proof.
  apply Nat.eqb_neq in Hargc; unfold combine_main, render_main; rewrite Hargc; split; reflexivity.
Qed.

Lemma usage_error_exit_witness :
  length [lit "combine.py"] <> 2%nat /\
  combine_main [lit "combine.py"] scenario_world =
    (SysExit 1, mkWorld (w_files scenario_world) (w_dirs scenario_world)
                        (w_stdout scenario_world ++ [lit "Usage: python combine.py <repo_name>"])) /\
  render_main cwd_demo ts_demo [lit "combine.py"] scenario_world =
    (SysExit 1, mkWorld (w_files scenario_world) (w_dirs scenario_world)
                        (w_stdout scenario_world ++ [lit "Usage: python render_html.py <repo_name>"])).
Proof.
  split; [cbn; discriminate|].
  apply (usage_error_exit cwd_demo ts_demo [lit "combine.py"] scenario_world); cbn; discriminate.
Defined.

(** C10 (counterexample): the bundle [{files: null}] makes
    [generate_html_template] raise [TypeError] from [len]. *)
Lemma render_null_files :
  generate_html_template (lit "demo") ts_demo null_files_bundle =
  Raise (TypeError (lit "object of type 'NoneType' has no len()")).
Proof. vm_compute. reflexivity. Qed.

(** C10 (amended): for an object whose [files] and [ast] values (with
    their defaults when absent) have a length, [generate_html_template]
    returns a page; a missing key among the seven renders as if it were
    present with its default: [files] as the empty list, [ast] as the empty
    object, each text field as its placeholder string.  A [files] value
    without a length (null, a boolean, an integer or a float) makes it
    raise [TypeError] from [len]; so does such an [ast] value when [files]
    has a length. *)
Lemma render_total_sized (repo_name timestamp : pstr) (d : dict) :
  let files := py_get d (lit "files") (JArr []) in
  let ast := py_get d (lit "ast") (JObj []) in
  (sized files -> sized ast ->
   exists html, generate_html_template repo_name timestamp (JObj d) = Ret html) /\
  (forall k dflt, In (k, dflt) render_defaults -> dict_lookup k d = None ->
   generate_html_template repo_name timestamp (JObj (d ++ [(k, dflt)])) =
   generate_html_template repo_name timestamp (JObj d)) /\
  (py_len files = None ->
   generate_html_template repo_name timestamp (JObj d) =
   Raise (TypeError (lit "object of type '" ++ py_type_name files ++ lit "' has no len()"))) /\
  (sized files -> py_len ast = None ->
   generate_html_template repo_name timestamp (JObj d) =
   Raise (TypeError (lit "object of type '" ++ py_type_name ast ++ lit "' has no len()"))).
Proof.
  cbv zeta; split; [|split; [|split]].
  - intros Hf Ha; unfold generate_html_template, sized in *.
    destruct (py_len (py_get d (lit "files") (JArr []))) as [n|] eqn:Ef; [|contradiction].
    destruct (py_len (py_get d (lit "ast") (JObj []))) as [m|] eqn:Ea; [|contradiction].
    destruct (py_len_iter _ _ Ef) as [fs ->]; eauto.
  - intros k dflt Hin Hk; unfold generate_html_template.
    destruct Hin as [Hin|[Hin|[Hin|[Hin|[Hin|[Hin|[Hin|[]]]]]]]]; injection Hin as <- <-;
    rewrite !(py_get_app_missing d _ _ _ _ Hk) by (first [right; reflexivity | left; vm_compute; reflexivity]);
    reflexivity.
  - intros Hf; unfold generate_html_template; rewrite Hf; reflexivity.
  - intros Hf Ha; unfold generate_html_template, sized in *.
    destruct (py_len (py_get d (lit "files") (JArr []))) as [n|]; [|contradiction].
    rewrite Ha; reflexivity.
Qed.
